(** * MinXSS beacon decoder: a shallow embedding of [minxss_parser.py]

    The development follows the Python class [Minxss_Parser] method by
    method.  Python 3 semantics are assumed throughout ([1 / 298] is a true
    division, indexing a [bytearray] yields an [int]), and the NumPy scalar
    types are those of NumPy 1.x on a 64-bit platform, the NumPy the parser was
    written against: a Python [int] converted to a fixed-width scalar wraps
    around silently, and a scalar combined with a Python [int] is promoted to
    [int64].

    Layout: the Python runtime pieces the parser relies on ([Py]), the NumPy
    scalars ([Np]), the methods of the class, then the theorems. *)

From Stdlib Require Import ZArith List Bool Lia String.
From Stdlib Require Import Strings.Byte.
From Stdlib Require Import Floats.PrimFloat Numbers.Cyclic.Int63.Uint63.
Import ListNotations.

Set Warnings "-inexact-float".
Local Open Scope Z_scope.

(** Value of a [bytearray] element: an [int] in [0, 255]. *)
Definition byte_val (b : byte) : Z := Z.of_N (Byte.to_N b).

(* ================================================================= *)
(** ** NumPy fixed-width scalars *)

Module Np.

Inductive dtype : Set :=
| int8 | uint8 | int16 | uint16 | int32 | uint32 | int64.

Definition bits (t : dtype) : Z :=
  match t with
  | int8 | uint8 => 8
  | int16 | uint16 => 16
  | int32 | uint32 => 32
  | int64 => 64
  end.

Definition signed (t : dtype) : bool :=
  match t with
  | int8 | int16 | int32 | int64 => true
  | uint8 | uint16 | uint32 => false
  end.

(** Two's-complement wrap-around into the range of [t]. *)
Definition wrap (t : dtype) (z : Z) : Z :=
  if signed t
  then (z + 2 ^ (bits t - 1)) mod 2 ^ bits t - 2 ^ (bits t - 1)
  else z mod 2 ^ bits t.

Record scalar : Set := Scalar { dt : dtype; val : Z }.

(** [int8(x)], [uint8(x)] on a Python [int]: silent wrap-around. *)
Definition of_int (t : dtype) (x : Z) : scalar := Scalar t (wrap t x).

(** [uint16(s)], [int32(s)], ... on a NumPy scalar: a C cast. *)
Definition cast (t : dtype) (s : scalar) : scalar := Scalar t (wrap t (val s)).

(** Result type of a binary operation on two scalars. *)
Definition promote (a b : dtype) : dtype :=
  match signed a, signed b with
  | true, true | false, false => if bits a <? bits b then b else a
  | true, false =>
      if bits b <? bits a then a
      else match b with uint8 => int16 | uint16 => int32 | _ => int64 end
  | false, true =>
      if bits a <? bits b then b
      else match a with uint8 => int16 | uint16 => int32 | _ => int64 end
  end.

(** [s << n] with [n] a Python [int]: the [int] operand is taken as the
    default integer [int64], so the shift is carried out in the promoted
    type. *)
Definition lshift_int (s : scalar) (n : Z) : scalar :=
  let t := promote (dt s) int64 in
  Scalar t (if (0 <=? n) && (n <? bits t) then wrap t (Z.shiftl (val s) n) else 0).

(** [a | b] on two scalars. *)
Definition bor (a b : scalar) : scalar :=
  let t := promote (dt a) (dt b) in
  Scalar t (wrap t (Z.lor (val a) (val b))).

End Np.

(* ================================================================= *)
(** ** The Python runtime used by the parser *)

Module Py.

Inductive exn : Set :=
| IndexError | TypeError | ValueError | ZeroDivisionError.

(** What a method can hand to a telemetry key. *)
Inductive value : Set :=
| VNone
| VInt (z : Z)
| VFloat (f : float)
| VNumpy (s : Np.scalar)
| VBytearray (bs : list byte).

(** A [dict] with string keys, in insertion order. *)
Definition dict : Set := list (string * value).

Fixpoint dict_set (d : dict) (k : string) (v : value) : dict :=
  match d with
  | [] => [(k, v)]
  | (k', v') :: r =>
      if String.eqb k' k then (k', v) :: r else (k', v') :: dict_set r k v
  end.

Fixpoint dict_get (d : dict) (k : string) : option value :=
  match d with
  | [] => None
  | (k', v') :: r => if String.eqb k' k then Some v' else dict_get r k
  end.

(** The logging collaborator [self.log]: records are kept in call order. *)
Inductive level : Set := DEBUG | INFO | ERROR.
Inductive message : Set := MsgText (s : string) | MsgDict (d : dict).
Record record : Set := Record_ { lvl : level; msg : message }.
Definition logbook : Set := list record.

(** A call either returns or raises; either way it leaves a logbook. *)
Inductive outcome (A : Type) : Type :=
| Ok (a : A)
| Raise (e : exn).
Arguments Ok {A} a.
Arguments Raise {A} e.

Definition M (A : Type) : Type := logbook -> outcome A * logbook.

Definition ret {A} (a : A) : M A := fun l => (Ok a, l).
Definition raise {A} (e : exn) : M A := fun l => (Raise e, l).
Definition bind {A B} (m : M A) (k : A -> M B) : M B :=
  fun l => match m l with
           | (Ok a, l') => k a l'
           | (Raise e, l') => (Raise e, l')
           end.
Definition emit (lv : level) (m : message) : M unit :=
  fun l => (Ok tt, l ++ [Record_ lv m]).

(** [l[i]] on a [bytearray]. *)
Definition getitem (l : list byte) (i : nat) : M Z :=
  match nth_error l i with
  | Some b => ret (byte_val b)
  | None => raise IndexError
  end.

(** [l[a:b]] for non-negative bounds: clamped, never raises. *)
Definition slice (l : list byte) (a b : nat) : list byte :=
  firstn (b - a) (skipn a l).

(** [bytearray.find(sub)]: lowest index where [sub] starts, else [-1]. *)
Fixpoint startswith (sub l : list byte) : bool :=
  match sub, l with
  | [], _ => true
  | _ :: _, [] => false
  | s :: sub', x :: l' => Byte.eqb s x && startswith sub' l'
  end.

Fixpoint find_from (sub l : list byte) (i : Z) : Z :=
  if startswith sub l then i
  else match l with
       | [] => -1
       | _ :: l' => find_from sub l' (i + 1)
       end.

Definition find (l sub : list byte) : Z := find_from sub l 0.

(** An [int] used in float arithmetic (exact below [2^53]). *)
Definition float_of_int (z : Z) : float :=
  if z <? 0 then PrimFloat.opp (PrimFloat.of_uint63 (Uint63.of_Z (- z)))
  else PrimFloat.of_uint63 (Uint63.of_Z z).

(** [a / b] on floats. *)
Definition truediv (a b : float) : M float :=
  if PrimFloat.eqb b 0%float then raise ZeroDivisionError
  else ret (PrimFloat.div a b).

(** [math.log(x)]: a domain error unless [x] is positive; on positive
    arguments it is the platform's C [log], which is not part of the
    repository and is taken as [libm_log]. *)
Definition math_log (libm_log : float -> float) (x : float) : M float :=
  if PrimFloat.leb x 0%float then raise ValueError else ret (libm_log x).

(** [int(x, base)] with [x] an [int]: an explicit base is only accepted
    with a string argument, so this always raises. *)
Definition int_with_base (x : Z) (base : Z) : M Z := raise TypeError.

End Py.

Import Py.

Declare Scope py_scope.
Delimit Scope py_scope with py.
Notation "x <- m ;; k" := (bind m (fun x => k))
  (at level 61, m at next level, right associativity) : py_scope.
Notation "m ;;; k" := (bind m (fun _ => k))
  (at level 61, right associativity) : py_scope.
Local Open Scope py_scope.

(* ================================================================= *)
(** ** The methods of [Minxss_Parser] *)

Section Minxss_Parser.

Variable libm_log : float -> float.

Definition startSyncBytes : list byte := [x08; x19].
Definition stopSyncBytes : list byte := [xa5; xa5].

Definition findSyncStartIndex (minxssSerialData : list byte) : Z :=
  let syncBytes := startSyncBytes in
  let packetStartIndex := find minxssSerialData syncBytes in
  packetStartIndex.

Definition findSyncStopIndex (minxssSerialData : list byte) : Z :=
  let syncBytes := stopSyncBytes in
  let packetStopIndex := find minxssSerialData syncBytes in
  packetStopIndex.

(** The branches on [len(bytearrayTemp)] are read off the shape of the
    list, so every index in a branch is in range. *)
Definition decodeBytes (bytearrayTemp : list byte) (returnUnsignedInt : bool)
  : M value :=
  match bytearrayTemp with
  | [_] => ret (VBytearray bytearrayTemp)
  | [t0; t1] =>
      let b0 := byte_val t0 in
      let b1 := byte_val t1 in
      if returnUnsignedInt
      then ret (VNumpy (Np.cast Np.uint16
                 (Np.bor (Np.lshift_int (Np.of_int Np.int8 b1) 8)
                         (Np.of_int Np.uint8 b0))))
      else ret (VNumpy (Np.cast Np.int16
                 (Np.bor (Np.lshift_int (Np.of_int Np.uint8 b1) 8)
                         (Np.of_int Np.uint8 b0))))
  | [t0; t1; t2; t3] =>
      let b0 := byte_val t0 in
      let b1 := byte_val t1 in
      let b2 := byte_val t2 in
      let b3 := byte_val t3 in
      let combined :=
        Np.bor (Np.bor (Np.bor (Np.lshift_int (Np.of_int Np.uint8 b3) 24)
                               (Np.of_int Np.uint8 (Z.shiftl b2 16)))
                       (Np.of_int Np.uint8 (Z.shiftl b1 8)))
               (Np.of_int Np.uint8 (Z.shiftl b0 0)) in
      if returnUnsignedInt
      then ret (VNumpy (Np.cast Np.uint32 combined))
      else ret (VNumpy (Np.cast Np.int32 combined))
  | _ =>
      emit DEBUG (MsgText "More bytes than expected") ;;;
      ret VNone
  end.

Definition TempCalc (bytearrayTemp : list byte) : M float :=
  Tinv <- truediv (float_of_int 1) (float_of_int 298) ;;
  let B := 3430 in
  v0 <- getitem bytearrayTemp 0 ;;
  v1 <- getitem bytearrayTemp 1 ;;
  let Voltage_thermistor := v0 + v1 in
  q <- truediv (float_of_int Voltage_thermistor)
               (PrimFloat.sub 3.3%float (float_of_int Voltage_thermistor)) ;;
  let Resistance_thermistor :=
    PrimFloat.mul (PrimFloat.mul q (float_of_int 23)) (float_of_int 1000) in
  R <- truediv Resistance_thermistor (float_of_int 10000) ;;
  lg <- math_log libm_log R ;;
  lgB <- truediv lg (float_of_int B) ;;
  Temperature <- truediv (float_of_int 1) (PrimFloat.add Tinv lgB) ;;
  ret (PrimFloat.sub Temperature (float_of_int 273)).

(** *** Byte-to-telemetry conversions, in the order of the source *)

Definition decodeTimeStamp (bytearrayTemp : list byte) : M value :=
  ret VNone.

Definition decodeCommandReceivedCount (bytearrayTemp : list byte) : M value :=
  ret VNone.

Definition decodeLastCommandReceived (bytearrayTemp : list byte) : M value :=
  ret VNone.

Definition decodeTemperature (bytearrayTemp : list byte) : M value :=
  t <- TempCalc bytearrayTemp ;; ret (VFloat t).

Definition decodeCDHPrimaryData (bytearrayTemp : list byte) : M value :=
  ret VNone.

Definition decodeRejectedCIPPackets (bytearrayTemp : list byte) : M value :=
  ret VNone.

Definition decodeLastDownlinkedHKSector (bytearrayTemp : list byte) : M value :=
  ret VNone.

Definition LastdownlinkedScienceSector (bytearrayTemp : list byte) : M value :=
  ret VNone.

Definition LastdownlinkedADCSSector (bytearrayTemp : list byte) : M value :=
  ret VNone.

Definition BatteryVoltage (bytearrayTemp : list byte) : M value :=
  v0 <- getitem bytearrayTemp 0 ;;
  v1 <- getitem bytearrayTemp 1 ;;
  let temp_hexdata := v0 + v1 in
  let scale := 16 in
  let num_of_bits := 16 in
  (* bin(int(temp_hexdata, scale))[2:].zfill(num_of_bits): the string is
     built and dropped *)
  _ <- int_with_base temp_hexdata scale ;;
  decodeBytes bytearrayTemp false.

Definition decodeBatteryCurrent (bytearrayTemp : list byte) : M value :=
  ret VNone.

Definition decodeBatterySOC (bytearrayTemp : list byte) : M value :=
  ret VNone.

Definition decodeBatteryTemperature (bytearrayTemp : list byte) : M value :=
  t <- TempCalc bytearrayTemp ;; ret (VFloat t).

Definition decodeSolarPanelVoltage (bytearrayTemp : list byte) : M value :=
  ret VNone.

Definition decodeSolarPanelCurrent (bytearrayTemp : list byte) : M value :=
  ret VNone.

Definition decodeInterfaceBoardTemperature (bytearrayTemp : list byte) : M value :=
  t <- TempCalc bytearrayTemp ;; ret (VFloat t).

Definition decodeEPSBoardTemperature (bytearrayTemp : list byte) : M value :=
  t <- TempCalc bytearrayTemp ;; ret (VFloat t).

Definition decodeCIPVoltage (bytearrayTemp : list byte) : M value :=
  ret (VInt 1).

Definition decodeCIPCurrent (bytearrayTemp : list byte) : M value :=
  ret (VInt 1).

Definition decodeADCSVoltage (bytearrayTemp : list byte) : M value :=
  ret (VInt 1).

Definition decodeADCSCurrent (bytearrayTemp : list byte) : M value :=
  ret (VInt 1).

Definition decodeSBandVoltage (bytearrayTemp : list byte) : M value :=
  ret (VInt 1).

Definition decodeSBandCurrent (bytearrayTemp : list byte) : M value :=
  ret (VInt 1).

Definition decodeUHFVoltage (bytearrayTemp : list byte) : M value :=
  ret (VInt 1).

Definition decodeUHFCurrent (bytearrayTemp : list byte) : M value :=
  ret (VInt 1).

Definition decodeCDHVoltage (bytearrayTemp : list byte) : M value :=
  ret (VInt 1).

Definition decodeCDHCurrent (bytearrayTemp : list byte) : M value :=
  ret (VInt 1).

Definition decodeGPS3Voltage (bytearrayTemp : list byte) : M value :=
  ret (VInt 1).

Definition decodeGPS3Current (bytearrayTemp : list byte) : M value :=
  ret (VInt 1).

Definition decodeGPS12Voltage (bytearrayTemp : list byte) : M value :=
  ret (VInt 1).

Definition decodeGPS12Current (bytearrayTemp : list byte) : M value :=
  ret (VInt 1).

Definition decodeBatteryHeaterCurrent (bytearrayTemp : list byte) : M value :=
  ret (VInt 1).

Definition decodeGeneralInfo (bytearrayTemp : list byte) : M value :=
  ret (VInt 1).

Definition decodeCIPTemperature (bytearrayTemp : list byte) : M value :=
  ret (VInt 1).

Definition decodeSystemChecksTemp (bytearrayTemp : list byte) : M value :=
  ret (VInt 1).

Definition decodeSystemCheckCurrent (bytearrayTemp : list byte) : M value :=
  ret (VInt 1).

Definition decodeShellTemp (bytearrayTemp : list byte) : M value :=
  ret (VInt 1).

Definition decodeCheckSumCounter (bytearrayTemp : list byte) : M value :=
  ret (VInt 1).

Definition decodeConfigurationStatus (bytearrayTemp : list byte) : M value :=
  ret (VInt 1).

Definition decodeSBandByte (bytearrayTemp : list byte) : M value :=
  ret (VInt 1).

Definition decodeCommandStatus (bytearrayTemp : list byte) : M value :=
  ret (VInt 1).

Definition decodeCommandRejectCount (bytearrayTemp : list byte) : M value :=
  ret (VInt 1).

Definition decodeCommandAcceptCount (bytearrayTemp : list byte) : M value :=
  ret (VInt 1).

Definition decodeTimeValid (bytearrayTemp : list byte) : M value :=
  ret (VInt 1).

Definition decodeTimeNow (bytearrayTemp : list byte) : M value :=
  ret (VInt 1).

Definition decodeAttitudeValid (bytearrayTemp : list byte) : M value :=
  ret (VInt 1).

Definition decodeRefsValid (bytearrayTemp : list byte) : M value :=
  ret (VInt 1).

Definition decodeADCSMode (bytearrayTemp : list byte) : M value :=
  ret (VInt 1).

Definition decodeRecommendSunPoint (bytearrayTemp : list byte) : M value :=
  ret (VInt 1).

Definition decodeSunPointState (bytearrayTemp : list byte) : M value :=
  ret (VInt 1).

Definition decodeStarTrackerTemperature (bytearrayTemp : list byte) : M value :=
  ret (VInt 1).

Definition decodeWheelTemperatures (bytearrayTemp : list byte) : M value :=
  ret (VInt 1).

Definition decodeDigitalBusVoltage (bytearrayTemp : list byte) : M value :=
  ret (VInt 1).

Definition decodeSunVector (bytearrayTemp : list byte) : M value :=
  ret (VInt 1).

Definition decodeWheelEstDrag (bytearrayTemp : list byte) : M value :=
  ret (VInt 1).

Definition decodeWheelMeasuredSpeed (bytearrayTemp : list byte) : M value :=
  ret (VInt 1).

Definition decodeBodyFrameRate (bytearrayTemp : list byte) : M value :=
  ret (VInt 1).

(** [selectedTelemetryDictionary[key] = call]: the call is evaluated, then
    the key is bound. *)
Definition setitem (d : dict) (key : string) (call : M value) : M dict :=
  v <- call ;; ret (dict_set d key v).

(** [parsePacket] returns either the integer [-1] or the dictionary. *)
Inductive parsed : Set :=
| RetInt (z : Z)
| RetDict (d : dict).

(** The body of [parsePacket] from the comment [# Get the telemetry points]
    to its [return], as a function of the reframed packet. *)
Definition telemetryPoints (inspirePacket : list byte) : M parsed :=
  let selectedTelemetryDictionary : dict := [] in
  selectedTelemetryDictionary <-
    setitem selectedTelemetryDictionary "Time Stamp"
      (decodeTimeStamp (slice inspirePacket 0 5)) ;;
  selectedTelemetryDictionary <-
    setitem selectedTelemetryDictionary "Commands Received"
      (decodeCommandReceivedCount (slice inspirePacket 5 (5 + 4))) ;;
  selectedTelemetryDictionary <-
    setitem selectedTelemetryDictionary "Last Command Received"
      (decodeLastCommandReceived (slice inspirePacket 9 (9 + 2))) ;;
  selectedTelemetryDictionary <-
    setitem selectedTelemetryDictionary "Temperature"
      (decodeTemperature (slice inspirePacket 11 13)) ;;
  selectedTelemetryDictionary <-
    setitem selectedTelemetryDictionary "C&DH Primary Data"
      (decodeCDHPrimaryData (slice inspirePacket 13 (13 + 1))) ;;
  selectedTelemetryDictionary <-
    setitem selectedTelemetryDictionary "Rejected CIP Packets"
      (decodeRejectedCIPPackets (slice inspirePacket 14 (14 + 4))) ;;
  selectedTelemetryDictionary <-
    setitem selectedTelemetryDictionary "Last Downlinked HK Sector"
      (decodeLastDownlinkedHKSector (slice inspirePacket 18 (18 + 4))) ;;
  selectedTelemetryDictionary <-
    setitem selectedTelemetryDictionary "Last downlinked Science Sector"
      (LastdownlinkedScienceSector (slice inspirePacket 22 (22 + 4))) ;;
  selectedTelemetryDictionary <-
    setitem selectedTelemetryDictionary "Last downlinked ADCS Sector"
      (LastdownlinkedADCSSector (slice inspirePacket 26 (26 + 4))) ;;
  selectedTelemetryDictionary <-
    setitem selectedTelemetryDictionary "Battery Voltage"
      (BatteryVoltage (slice inspirePacket 29 31)) ;;
  selectedTelemetryDictionary <-
    setitem selectedTelemetryDictionary "Battery Current"
      (decodeBatteryCurrent (slice inspirePacket 31 33)) ;;
  selectedTelemetryDictionary <-
    setitem selectedTelemetryDictionary "Battery SOC"
      (decodeBatterySOC (slice inspirePacket 33 35)) ;;
  selectedTelemetryDictionary <-
    setitem selectedTelemetryDictionary "Battery Temperature"
      (decodeBatteryTemperature (slice inspirePacket 35 43)) ;;
  selectedTelemetryDictionary <-
    setitem selectedTelemetryDictionary "Solar Panel Voltage"
      (decodeSolarPanelVoltage (slice inspirePacket 43 49)) ;;
  selectedTelemetryDictionary <-
    setitem selectedTelemetryDictionary "Solar Panel Current"
      (decodeSolarPanelCurrent (slice inspirePacket 49 54)) ;;
  selectedTelemetryDictionary <-
    setitem selectedTelemetryDictionary "Interface Board Temperature"
      (decodeInterfaceBoardTemperature (slice inspirePacket 54 56)) ;;
  selectedTelemetryDictionary <-
    setitem selectedTelemetryDictionary "EPS Board Temperature"
      (decodeEPSBoardTemperature (slice inspirePacket 56 58)) ;;
  selectedTelemetryDictionary <-
    setitem selectedTelemetryDictionary "CIP Voltage"
      (decodeCIPVoltage (slice inspirePacket 58 60)) ;;
  selectedTelemetryDictionary <-
    setitem selectedTelemetryDictionary "CIP Current"
      (decodeCIPCurrent (slice inspirePacket 60 62)) ;;
  selectedTelemetryDictionary <-
    setitem selectedTelemetryDictionary "ADCS Voltage"
      (decodeADCSVoltage (slice inspirePacket 62 64)) ;;
  selectedTelemetryDictionary <-
    setitem selectedTelemetryDictionary "ADCS Current"
      (decodeADCSCurrent (slice inspirePacket 64 66)) ;;
  selectedTelemetryDictionary <-
    setitem selectedTelemetryDictionary "S-Band Voltage"
      (decodeSBandVoltage (slice inspirePacket 66 (66 + 2))) ;;
  selectedTelemetryDictionary <-
    setitem selectedTelemetryDictionary "S-Band Current"
      (decodeSBandCurrent (slice inspirePacket 68 (68 + 2))) ;;
  selectedTelemetryDictionary <-
    setitem selectedTelemetryDictionary "UHF Voltage"
      (decodeUHFVoltage (slice inspirePacket 70 (70 + 2))) ;;
  selectedTelemetryDictionary <-
    setitem selectedTelemetryDictionary "UHF Current"
      (decodeUHFCurrent (slice inspirePacket 72 (72 + 2))) ;;
  selectedTelemetryDictionary <-
    setitem selectedTelemetryDictionary "C&DH Voltage"
      (decodeCDHVoltage (slice inspirePacket 74 (74 + 2))) ;;
  selectedTelemetryDictionary <-
    setitem selectedTelemetryDictionary "C&DH Current"
      (decodeCDHCurrent (slice inspirePacket 76 (76 + 2))) ;;
  selectedTelemetryDictionary <-
    setitem selectedTelemetryDictionary "GPS 3.3 Voltage"
      (decodeGPS3Voltage (slice inspirePacket 78 (78 + 2))) ;;
  selectedTelemetryDictionary <-
    setitem selectedTelemetryDictionary "GPS 3.3 Current"
      (decodeGPS3Current (slice inspirePacket 80 (80 + 2))) ;;
  selectedTelemetryDictionary <-
    setitem selectedTelemetryDictionary "GPS 12 Voltage"
      (decodeGPS12Voltage (slice inspirePacket 82 (82 + 6))) ;;
  selectedTelemetryDictionary <-
    setitem selectedTelemetryDictionary "GPS 12 Current"
      (decodeGPS12Current (slice inspirePacket 88 (88 + 6))) ;;
  selectedTelemetryDictionary <-
    setitem selectedTelemetryDictionary "Battery Heater Current"
      (decodeBatteryHeaterCurrent (slice inspirePacket 94 (94 + 2))) ;;
  selectedTelemetryDictionary <-
    setitem selectedTelemetryDictionary "General Information"
      (decodeGeneralInfo (slice inspirePacket 96 (96 + 4))) ;;
  selectedTelemetryDictionary <-
    setitem selectedTelemetryDictionary "CIP Temperature"
      (decodeCIPTemperature (slice inspirePacket 100 (100 + 6))) ;;
  selectedTelemetryDictionary <-
    setitem selectedTelemetryDictionary "System Check Temperature"
      (decodeSystemChecksTemp (slice inspirePacket 106 (106 + 2))) ;;
  selectedTelemetryDictionary <-
    setitem selectedTelemetryDictionary "System Check Current Channel"
      (decodeSystemCheckCurrent (slice inspirePacket 108 (108 + 1))) ;;
  selectedTelemetryDictionary <-
    setitem selectedTelemetryDictionary "Shell Temperature"
      (decodeShellTemp (slice inspirePacket 109 (109 + 2))) ;;
  selectedTelemetryDictionary <-
    setitem selectedTelemetryDictionary "Check Sum Counter"
      (decodeCheckSumCounter (slice inspirePacket 111 (111 + 2))) ;;
  selectedTelemetryDictionary <-
    setitem selectedTelemetryDictionary "Configuration Status"
      (decodeConfigurationStatus (slice inspirePacket 113 (113 + 1))) ;;
  selectedTelemetryDictionary <-
    setitem selectedTelemetryDictionary "SBandByte"
      (decodeSBandByte (slice inspirePacket 114 (114 + 1))) ;;
  selectedTelemetryDictionary <-
    setitem selectedTelemetryDictionary "Command Status"
      (decodeCommandStatus (slice inspirePacket 115 (115 + 1))) ;;
  selectedTelemetryDictionary <-
    setitem selectedTelemetryDictionary "Command Reject Count"
      (decodeCommandRejectCount (slice inspirePacket 116 (116 + 1))) ;;
  selectedTelemetryDictionary <-
    setitem selectedTelemetryDictionary "Command Accept Count"
      (decodeCommandAcceptCount (slice inspirePacket 117 (117 + 1))) ;;
  selectedTelemetryDictionary <-
    setitem selectedTelemetryDictionary "Time Valid"
      (decodeTimeValid (slice inspirePacket 118 (118 + 1))) ;;
  selectedTelemetryDictionary <-
    setitem selectedTelemetryDictionary "Time Now"
      (decodeTimeNow (slice inspirePacket 119 (119 + 4))) ;;
  selectedTelemetryDictionary <-
    setitem selectedTelemetryDictionary "Refs Valid"
      (decodeRefsValid (slice inspirePacket 123 (123 + 1))) ;;
  selectedTelemetryDictionary <-
    setitem selectedTelemetryDictionary "Attitude Valid"
      (decodeAttitudeValid (slice inspirePacket 123 (123 + 1))) ;;
  selectedTelemetryDictionary <-
    setitem selectedTelemetryDictionary "ADCS Mode"
      (decodeADCSMode (slice inspirePacket 124 (124 + 1))) ;;
  selectedTelemetryDictionary <-
    setitem selectedTelemetryDictionary "Recommend Sun Point"
      (decodeRecommendSunPoint (slice inspirePacket 125 (125 + 1))) ;;
  selectedTelemetryDictionary <-
    setitem selectedTelemetryDictionary "Sun Point State"
      (decodeSunPointState (slice inspirePacket 126 (126 + 1))) ;;
  selectedTelemetryDictionary <-
    setitem selectedTelemetryDictionary "Star Tracker Temperature"
      (decodeStarTrackerTemperature (slice inspirePacket 127 (127 + 1))) ;;
  selectedTelemetryDictionary <-
    setitem selectedTelemetryDictionary "Wheel Temperatures"
      (decodeWheelTemperatures (slice inspirePacket 128 (128 + 6))) ;;
  selectedTelemetryDictionary <-
    setitem selectedTelemetryDictionary "Digital Bus Voltage"
      (decodeDigitalBusVoltage (slice inspirePacket 134 (134 + 2))) ;;
  selectedTelemetryDictionary <-
    setitem selectedTelemetryDictionary "Sun Vector"
      (decodeSunVector (slice inspirePacket 136 (136 + 6))) ;;
  selectedTelemetryDictionary <-
    setitem selectedTelemetryDictionary "Wheel Est Drag"
      (decodeWheelEstDrag (slice inspirePacket 142 (142 + 6))) ;;
  selectedTelemetryDictionary <-
    setitem selectedTelemetryDictionary "Wheel Measured Speed"
      (decodeWheelMeasuredSpeed (slice inspirePacket 148 (148 + 6))) ;;
  selectedTelemetryDictionary <-
    setitem selectedTelemetryDictionary "Body Frame Rate"
      (decodeBodyFrameRate (slice inspirePacket 154 (154 + 12))) ;;
  emit INFO (MsgText "From MinXSS parser:") ;;;
  emit INFO (MsgDict selectedTelemetryDictionary) ;;;
  ret (RetDict selectedTelemetryDictionary).

Definition parsePacket (inspirePacket : list byte) : M parsed :=
  let syncOffset := findSyncStartIndex inspirePacket in
  if syncOffset =? -1 then
    emit ERROR (MsgText "No start sync bytes found in minxss_parser, exiting.") ;;;
    ret (RetInt (-1))
  else
    let inspirePacket :=
      slice inspirePacket (Z.to_nat syncOffset) (List.length inspirePacket) in
    telemetryPoints inspirePacket.

End Minxss_Parser.

(** The packet of the module's [__main__] block. *)
Definition exampleData : list byte :=
  [xc0; x00; x9a; x92; x00; xb0; xa6; x64; x60; x86;
   xa2; x40; x40; x40; x40; xe1; x03; xf0; x08; x19;
   xc1; x6f; x00; xf7; xf1; x34; xd6; x45; x47; x02;
   x0a; x86; x4b; x00; x0c; x00; x01; x00; x2e; x74;
   x01; x03; x30; x03; x00; x03; x79; x00; x00; x01;
   xfa; xc7; x10; x01; x03; x00; x00; x01; x5a; x80;
   x04; x01; x00; x00; x00; x92; x00; x00; x00; x21;
   x00; x00; x00; x01; x00; x00; x00; x08; x00; x00;
   x00; x01; x00; x00; x00; x80; x00; x00; x5f; x00;
   x47; x13; x00; x00; x0a; x80; xf6; x01; xe2; x03;
   xd3; x0b; x06; x08; x90; x18; x05; x04; x00; x00;
   x00; x00; x00; x00; x00; x00; x00; x00; x01; x00;
   x00; x00; x8e; x01; x13; x00; x6d; x00; x00; x64;
   x88; x01; x00; x00; xac; x25; x01; x00; x07; x0b;
   x20; x17; x40; x15; x90; x15; x80; x17; x40; x18;
   xe0; xce; x58; x61; x08; x00; x78; x07; x08; x00;
   x80; x06; x08; x00; x30; x06; x18; x00; x50; x20;
   x30; x01; x90; x0d; x18; x00; x78; x13; x4d; x05;
   x44; x05; x51; x05; x09; x08; x14; x00; x9e; x05;
   x6c; x00; xa0; x05; xf3; x01; x5c; x00; x4f; x02;
   x52; x02; x53; x01; x53; x01; x33; x01; x00; x00;
   x08; x01; x00; x00; x7e; x00; x00; x00; xcd; x00;
   x00; x00; x00; x00; x00; x00; x00; x00; x00; x00;
   x00; x00; xc7; x2f; x20; x12; xd8; x00; x00; x00;
   x05; x07; x02; x00; x00; x00; x27; x06; x00; x00;
   x09; x06; x00; x00; x00; x00; x00; x00; xfc; xff;
   xfd; xff; x07; x00; x07; x49; x00; x00; xe5; xf9;
   xa5; xa5; xc0].

(** A stand-in for the C [log] in closed examples. *)
Definition libm_absent : float -> float := fun _ => PrimFloat.nan.

(* ================================================================= *)
(** ** Vocabulary of the statements *)

(** [m] occurs in [buf] with its first byte at index [i]. *)
Definition occurs_at (m buf : list byte) (i : nat) : Prop :=
  exists pre post, buf = pre ++ m ++ post /\ List.length pre = i.

(** [i] is the index of the leftmost occurrence of [m] in [buf]. *)
Definition leftmost (m buf : list byte) (i : nat) : Prop :=
  occurs_at m buf i /\ forall j, (j < i)%nat -> ~ occurs_at m buf j.

(** [m] does not occur in [buf]. *)
Definition absent (m buf : list byte) : Prop :=
  forall i, ~ occurs_at m buf i.

(** The record [parsePacket] logs when framing fails. *)
Definition noSyncRecord : record :=
  Record_ ERROR (MsgText "No start sync bytes found in minxss_parser, exiting.").

(** The record [decodeBytes] logs on a width other than 1, 2 or 4. *)
Definition moreBytesRecord : record :=
  Record_ DEBUG (MsgText "More bytes than expected").

(** The little-endian value of a byte string: the sum of [b[i] << (8*i)]. *)
Fixpoint little_endian_from (i : Z) (bs : list byte) : Z :=
  match bs with
  | [] => 0
  | b :: r => Z.shiftl (byte_val b) (8 * i) + little_endian_from (i + 1) r
  end.

Definition little_endian (bs : list byte) : Z := little_endian_from 0 bs.

(** The thermistor formula in binary64, written from the statement
    [1 / (1/298 + ln(R) / 3430) - 273] with
    [R = ((V / (3.3 - V)) * 23 * 1000) / 10000], every operation rounded in
    the order the source performs it. *)
Definition thermistor_R (V : Z) : float :=
  PrimFloat.div
    (PrimFloat.mul
       (PrimFloat.mul
          (PrimFloat.div (float_of_int V)
                         (PrimFloat.sub 3.3%float (float_of_int V)))
          (float_of_int 23))
       (float_of_int 1000))
    (float_of_int 10000).

Definition thermistor_celsius (libm_log : float -> float) (V : Z) : M float :=
  T <- truediv (float_of_int 1)
         (PrimFloat.add
            (PrimFloat.div (float_of_int 1) (float_of_int 298))
            (PrimFloat.div (libm_log (thermistor_R V)) (float_of_int 3430))) ;;
  ret (PrimFloat.sub T (float_of_int 273)).

(** The same resistance with the series constant folded into [23000]. *)
Definition thermistor_R_folded (V : Z) : float :=
  PrimFloat.div
    (PrimFloat.mul
       (PrimFloat.div (float_of_int V)
                      (PrimFloat.sub 3.3%float (float_of_int V)))
       (float_of_int 23000))
    (float_of_int 10000).

(** The raw sums on which the logarithm has no value: [R <= 0]. *)
Definition log_undefined (V : Z) : bool := (V =? 0) || (4 <=? V).

(** What is checked of the float arithmetic on one raw sum: the divider
    [3.3 - V] is not zero, and [R <= 0] exactly on [log_undefined]. *)
Definition domain_check (V : Z) : bool :=
  negb (PrimFloat.eqb (PrimFloat.sub 3.3%float (float_of_int V)) 0%float)
  && Bool.eqb (PrimFloat.leb (thermistor_R V) 0%float) (log_undefined V).

(** Every sum of two bytes. *)
Definition raw_sums : list Z := map Z.of_nat (seq 0 511).

(** What [testParsePacket] leaves behind, in the order it happens: records
    given to its [log] argument, records [parsePacket] gave to [self.log], and
    what was printed.  One chronological trace serves whether or not the two
    loggers are the same object. *)
Inductive event : Set :=
| ArgLog (lv : level) (text : string)
| ArgLogResult (lv : level) (r : parsed)
| SelfLog (r : record)
| Printed (r : parsed).

Definition testParsePacket (libm_log : float -> float)
           (inspirePacket : list byte) (trace : list event)
  : outcome unit * list event :=
  let trace := trace ++ [ArgLog INFO "Testing MinXSS packet parse"] in
  match parsePacket libm_log inspirePacket [] with
  | (Raise e, records) => (Raise e, trace ++ map SelfLog records)
  | (Ok selectedTelemetryDictionary, records) =>
      let trace := trace ++ map SelfLog records in
      let trace := trace ++ [Printed selectedTelemetryDictionary] in
      let trace := trace ++ [ArgLogResult INFO selectedTelemetryDictionary] in
      (Ok tt, trace)
  end.


(* ================================================================= *)
(** ** Bytes and sub-sequence search *)

Lemma byte_val_range (b : byte) : 0 <= byte_val b <= 255.
Proof.
  unfold byte_val. pose proof (Byte.to_N_bounded b). lia.
Qed.

Lemma startswith_prefix (sub l : list byte) :
  startswith sub l = true <-> exists post, l = sub ++ post.
Proof.
  revert l. induction sub as [|s sub IH]; intros l; simpl.
  - split; [intros _; now exists l | reflexivity].
  - destruct l as [|x l].
    + split; [discriminate | intros [post H]; discriminate].
    + rewrite andb_true_iff, IH. split.
      * intros [E [post ->]]. apply Byte.byte_dec_bl in E. subst x. now exists post.
      * intros [post H]. injection H as -> ->. split.
        -- now apply Byte.byte_dec_lb.
        -- now exists post.
Qed.

Lemma occurs_at_0 (m l : list byte) :
  occurs_at m l 0 <-> startswith m l = true.
Proof.
  rewrite startswith_prefix. split.
  - intros [pre [post [E L]]]. destruct pre; [|discriminate]. now exists post.
  - intros [post E]. now exists [], post.
Qed.

Lemma occurs_at_S (m : list byte) (x : byte) (l : list byte) (i : nat) :
  occurs_at m (x :: l) (S i) <-> occurs_at m l i.
Proof.
  split.
  - intros [pre [post [E L]]]. destruct pre as [|y pre]; [discriminate|].
    simpl in E, L. injection E as _ E. injection L as L. now exists pre, post.
  - intros [pre [post [E L]]]. exists (x :: pre), post. simpl. now rewrite E, L.
Qed.

Lemma occurs_at_nil (m : list byte) (i : nat) :
  occurs_at m [] i -> startswith m [] = true.
Proof.
  intros [pre [post [E L]]]. symmetry in E.
  apply app_eq_nil in E as [_ E]. apply app_eq_nil in E as [-> _]. reflexivity.
Qed.

(** [find_from] returns the offset-shifted index of the leftmost occurrence,
    or [-1] when there is none. *)
Lemma find_from_spec (sub l : list byte) (k : Z) :
  (find_from sub l k = -1 /\ absent sub l) \/
  (exists i, find_from sub l k = k + Z.of_nat i /\ leftmost sub l i).
Proof.
  revert k. induction l as [|x l IH]; intros k; simpl.
  - destruct (startswith sub []) eqn:E.
    + right. exists 0%nat. split; [lia|]. split.
      * now apply occurs_at_0.
      * intros j Hj. lia.
    + left. split; [reflexivity|]. intros i H.
      apply occurs_at_nil in H. congruence.
  - destruct (startswith sub (x :: l)) eqn:E.
    + right. exists 0%nat. split; [lia|]. split.
      * now apply occurs_at_0.
      * intros j Hj. lia.
    + destruct (IH (k + 1)) as [[F A] | [i [F [O Lm]]]].
      * left. split; [exact F|]. intros [|i] H.
        -- apply occurs_at_0 in H. congruence.
        -- apply occurs_at_S in H. exact (A i H).
      * right. exists (S i). split; [rewrite F; lia|]. split.
        -- now apply occurs_at_S.
        -- intros [|j] Hj H.
           ++ apply occurs_at_0 in H. congruence.
           ++ apply occurs_at_S in H. apply (Lm j); [lia | exact H].
Qed.

Lemma find_spec (sub l : list byte) :
  (find l sub = -1 /\ absent sub l) \/
  (exists i, find l sub = Z.of_nat i /\ leftmost sub l i).
Proof.
  unfold find. destruct (find_from_spec sub l 0) as [H | [i [F H]]].
  - now left.
  - right. exists i. split; [rewrite F; lia | exact H].
Qed.

Lemma find_absent_iff (sub l : list byte) :
  find l sub = -1 <-> absent sub l.
Proof.
  destruct (find_spec sub l) as [[F A] | [i [F [O _]]]].
  - tauto.
  - split.
    + intros E. lia.
    + intros A. destruct (A i O).
Qed.

(** C10: [findSyncStartIndex] is a total function to the integers (it cannot
    raise) that returns the index of the first byte of the leftmost
    occurrence of [0x08 0x19], and [-1] exactly when the marker does not
    occur; [findSyncStopIndex] does the same for [0xA5 0xA5].  A buffer whose
    first marker sits at index 17 yields 17, and the packet of the
    [__main__] block yields 18 and 270. *)
Theorem findSync_index_or_sentinel (buf : list byte) :
  ((findSyncStartIndex buf = -1 /\ absent startSyncBytes buf) \/
   (exists i, findSyncStartIndex buf = Z.of_nat i /\ leftmost startSyncBytes buf i))
  /\
  ((findSyncStopIndex buf = -1 /\ absent stopSyncBytes buf) \/
   (exists i, findSyncStopIndex buf = Z.of_nat i /\ leftmost stopSyncBytes buf i))
  /\ findSyncStartIndex (repeat x00 17 ++ [x08; x19; xc1; x6f]) = 17
  /\ findSyncStartIndex (repeat x00 17 ++ [x19; x08; xa5; xa5]) = -1
  /\ findSyncStopIndex (repeat x08 17 ++ [xa5; xa5; xc0]) = 17
  /\ findSyncStartIndex exampleData = 18
  /\ findSyncStopIndex exampleData = 270.
Proof.
  unfold findSyncStartIndex, findSyncStopIndex.
  split; [apply find_spec|]. split; [apply find_spec|].
  repeat split; vm_compute; reflexivity.
Qed.

(* ================================================================= *)
(** ** Bit-level and NumPy facts *)

Lemma land_shiftl_low (a lo n : Z) :
  0 <= n -> 0 <= lo < 2 ^ n -> Z.land (Z.shiftl a n) lo = 0.
Proof.
  intros Hn Hlo. apply Z.bits_inj'. intros i Hi.
  rewrite Z.land_spec, Z.bits_0.
  destruct (Z.lt_ge_cases i n) as [L | G].
  - rewrite Z.shiftl_spec_low by exact L. reflexivity.
  - destruct (Z.eq_dec lo 0) as [-> | Hz].
    + rewrite Z.bits_0. apply andb_false_r.
    + rewrite (Z.bits_above_log2 lo i); [apply andb_false_r | lia |].
      apply Z.log2_lt_pow2; [lia|].
      apply Z.lt_le_trans with (2 ^ n); [lia|].
      apply Z.pow_le_mono_r; lia.
Qed.

Lemma lor_shiftl_low (a lo n : Z) :
  0 <= n -> 0 <= lo < 2 ^ n -> Z.lor (Z.shiftl a n) lo = a * 2 ^ n + lo.
Proof.
  intros Hn Hlo.
  rewrite <- Z.lxor_lor by (now apply land_shiftl_low).
  rewrite <- Z.add_nocarry_lxor by (now apply land_shiftl_low).
  now rewrite Z.shiftl_mul_pow2.
Qed.

Lemma lor_byte_pair (lo hi : byte) :
  Z.lor (byte_val lo) (Z.shiftl (byte_val hi) 8) = byte_val lo + 256 * byte_val hi.
Proof.
  pose proof (byte_val_range lo). rewrite Z.lor_comm.
  rewrite lor_shiftl_low by (change (2 ^ 8) with 256; lia).
  change (2 ^ 8) with 256. lia.
Qed.

Section NpFacts.
Import Np.

Lemma wrap_unsigned (t : dtype) (z : Z) :
  signed t = false -> wrap t z = z mod 2 ^ bits t.
Proof. unfold wrap. now intros ->. Qed.

Lemma wrap_signed (t : dtype) (z : Z) :
  signed t = true ->
  wrap t z = (z + 2 ^ (bits t - 1)) mod 2 ^ bits t - 2 ^ (bits t - 1).
Proof. unfold wrap. now intros ->. Qed.

Lemma wrap_range (t : dtype) (z : Z) :
  (if signed t then - 2 ^ (bits t - 1) else 0) <= wrap t z
  <= (if signed t then 2 ^ (bits t - 1) - 1 else 2 ^ bits t - 1).
Proof.
  unfold wrap. destruct t; simpl signed; simpl bits; cbv iota;
    match goal with |- context [?a mod ?m] =>
      pose proof (Z.mod_pos_bound a m ltac:(reflexivity)) end;
    simpl Z.sub in *; lia.
Qed.

Lemma wrap_small (t : dtype) (z : Z) :
  (if signed t then - 2 ^ (bits t - 1) else 0) <= z
  <= (if signed t then 2 ^ (bits t - 1) - 1 else 2 ^ bits t - 1) ->
  wrap t z = z.
Proof.
  unfold wrap. destruct t; simpl signed; simpl bits; cbv iota; simpl Z.sub;
    intros H; [ | apply Z.mod_small; lia | | apply Z.mod_small; lia
              | | apply Z.mod_small; lia | ];
    rewrite Z.mod_small; lia.
Qed.

Lemma wrap_int8_byte (b : byte) :
  wrap int8 (byte_val b) =
  if byte_val b <? 128 then byte_val b else byte_val b - 256.
Proof.
  pose proof (byte_val_range b) as R.
  rewrite wrap_signed by reflexivity. change (2 ^ (bits int8 - 1)) with 128.
  change (2 ^ bits int8) with 256.
  destruct (Z.ltb_spec (byte_val b) 128).
  - rewrite Z.mod_small; lia.
  - replace (byte_val b + 128) with ((byte_val b - 128) + 1 * 256) by lia.
    rewrite Z.mod_add by lia. rewrite Z.mod_small; lia.
Qed.

Lemma wrap_uint8_byte (b : byte) : wrap uint8 (byte_val b) = byte_val b.
Proof.
  pose proof (byte_val_range b). apply wrap_small. simpl. lia.
Qed.

Lemma wrap_uint8_shifted (z n : Z) : 8 <= n -> wrap uint8 (Z.shiftl z n) = 0.
Proof.
  intros Hn. rewrite wrap_unsigned by reflexivity. change (bits uint8) with 8.
  rewrite Z.shiftl_mul_pow2 by lia.
  replace n with ((n - 8) + 8) by lia. rewrite Z.pow_add_r by lia.
  rewrite Z.mul_assoc. apply Z.mod_mul. lia.
Qed.

(** The two-byte unsigned branch: although the high byte goes through
    [int8], the final [uint16] cast restores the 16-bit pattern. *)
Lemma decodeBytes_2_unsigned (lo hi : byte) (lg : logbook) :
  decodeBytes [lo; hi] true lg =
  (Ok (VNumpy (Scalar uint16 (byte_val lo + 256 * byte_val hi))), lg).
Proof.
  pose proof (byte_val_range lo) as Rl. pose proof (byte_val_range hi) as Rh.
  unfold decodeBytes, ret. do 3 f_equal.
  change (cast uint16 (bor (lshift_int (of_int int8 (byte_val hi)) 8)
                           (of_int uint8 (byte_val lo))))
    with (Scalar uint16 (wrap uint16 (wrap int64
            (Z.lor (wrap int64 (Z.shiftl (wrap int8 (byte_val hi)) 8))
                   (wrap uint8 (byte_val lo)))))).
  f_equal. rewrite wrap_uint8_byte, wrap_int8_byte.
  set (s := if byte_val hi <? 128 then byte_val hi else byte_val hi - 256).
  assert (Hs : -128 <= s <= 127 /\ (s = byte_val hi \/ s = byte_val hi - 256)).
  { subst s. destruct (Z.ltb_spec (byte_val hi) 128); lia. }
  rewrite (wrap_small int64 (Z.shiftl s 8)).
  2:{ rewrite Z.shiftl_mul_pow2 by lia. change (2 ^ 8) with 256. simpl. lia. }
  rewrite lor_shiftl_low by (change (2 ^ 8) with 256; lia).
  change (2 ^ 8) with 256.
  rewrite (wrap_small int64) by (simpl; lia).
  rewrite wrap_unsigned by reflexivity. change (2 ^ bits uint16) with 65536.
  destruct Hs as [Hr [-> | ->]].
  - rewrite Z.mod_small; lia.
  - replace ((byte_val hi - 256) * 256 + byte_val lo)
      with ((byte_val lo + 256 * byte_val hi) + (-1) * 65536) by lia.
    rewrite Z.mod_add by lia. rewrite Z.mod_small; lia.
Qed.

Lemma decodeBytes_2_signed (lo hi : byte) (lg : logbook) :
  decodeBytes [lo; hi] false lg =
  (Ok (VNumpy (Scalar int16
     (if byte_val hi <? 128 then byte_val lo + 256 * byte_val hi
      else byte_val lo + 256 * byte_val hi - 65536))), lg).
Proof.
  pose proof (byte_val_range lo) as Rl. pose proof (byte_val_range hi) as Rh.
  unfold decodeBytes, ret. do 3 f_equal.
  change (cast int16 (bor (lshift_int (of_int uint8 (byte_val hi)) 8)
                           (of_int uint8 (byte_val lo))))
    with (Scalar int16 (wrap int16 (wrap int64
            (Z.lor (wrap int64 (Z.shiftl (wrap uint8 (byte_val hi)) 8))
                   (wrap uint8 (byte_val lo)))))).
  f_equal. rewrite !wrap_uint8_byte.
  rewrite (wrap_small int64 (Z.shiftl _ 8)).
  2:{ rewrite Z.shiftl_mul_pow2 by lia. change (2 ^ 8) with 256. simpl. lia. }
  rewrite lor_shiftl_low by (change (2 ^ 8) with 256; lia).
  change (2 ^ 8) with 256.
  rewrite (wrap_small int64) by (simpl; lia).
  rewrite wrap_signed by reflexivity.
  change (2 ^ (bits int16 - 1)) with 32768. change (2 ^ bits int16) with 65536.
  destruct (Z.ltb_spec (byte_val hi) 128).
  - rewrite Z.mod_small; lia.
  - replace (byte_val hi * 256 + byte_val lo + 32768)
      with ((byte_val hi * 256 + byte_val lo - 32768) + 1 * 65536) by lia.
    rewrite Z.mod_add by lia. rewrite Z.mod_small; lia.
Qed.

(** The four-byte expression before the final cast: the casts
    [uint8(b << 16)] and [uint8(b << 8)] keep the low eight bits of an
    already shifted value, which are zero. *)
Lemma decodeBytes_4_combined (b0 b1 b2 b3 : byte) :
  bor (bor (bor (lshift_int (of_int uint8 (byte_val b3)) 24)
                (of_int uint8 (Z.shiftl (byte_val b2) 16)))
           (of_int uint8 (Z.shiftl (byte_val b1) 8)))
      (of_int uint8 (Z.shiftl (byte_val b0) 0))
  = Scalar int64 (byte_val b0 + 16777216 * byte_val b3).
Proof.
  pose proof (byte_val_range b0) as R0. pose proof (byte_val_range b3) as R3.
  unfold of_int. rewrite !wrap_uint8_shifted by lia.
  rewrite Z.shiftl_0_r, !wrap_uint8_byte.
  change (bor (bor (bor (lshift_int (Scalar uint8 (byte_val b3)) 24)
                        (Scalar uint8 0)) (Scalar uint8 0))
              (Scalar uint8 (byte_val b0)))
    with (Scalar int64 (wrap int64 (Z.lor (wrap int64 (Z.lor (wrap int64
            (Z.lor (wrap int64 (Z.shiftl (byte_val b3) 24)) 0)) 0))
            (byte_val b0)))).
  f_equal. rewrite !Z.lor_0_r.
  assert (E : wrap int64 (Z.shiftl (byte_val b3) 24) = Z.shiftl (byte_val b3) 24).
  { apply wrap_small. rewrite Z.shiftl_mul_pow2 by lia.
    change (2 ^ 24) with 16777216. simpl. lia. }
  rewrite !E. rewrite lor_shiftl_low by (change (2 ^ 24) with 16777216; lia).
  change (2 ^ 24) with 16777216. rewrite wrap_small by (simpl; lia). lia.
Qed.

End NpFacts.

(* ================================================================= *)
(** ** [decodeBytes] *)

Lemma little_endian_4 (b0 b1 b2 b3 : byte) :
  little_endian [b0; b1; b2; b3] =
  byte_val b0 + 256 * byte_val b1 + 65536 * byte_val b2 + 16777216 * byte_val b3.
Proof.
  unfold little_endian, little_endian_from.
  rewrite !Z.shiftl_mul_pow2 by lia.
  change (2 ^ (8 * 0)) with 1. change (2 ^ (8 * (0 + 1))) with 256.
  change (2 ^ (8 * (0 + 1 + 1))) with 65536.
  change (2 ^ (8 * (0 + 1 + 1 + 1))) with 16777216. lia.
Qed.

Lemma byte_val_x00 : byte_val x00 = 0.
Proof. reflexivity. Qed.

(** C3: on four bytes the code does not return the little-endian
    combination.  Whatever the two middle bytes are, both the unsigned and the
    signed result are those of the input with the middle bytes zeroed,
    [b[0] + (b[3] << 24)]; on [00 01 00 00] the unsigned result is 0 where the
    little-endian value is 256. *)
Theorem decodeBytes_four_bytes_loses_middle
        (b0 b1 b2 b3 : byte) (lg : logbook) :
  decodeBytes [b0; b1; b2; b3] true lg =
    (Ok (VNumpy (Np.Scalar Np.uint32 (little_endian [b0; x00; x00; b3]))), lg)
  /\ decodeBytes [b0; b1; b2; b3] false lg =
    (Ok (VNumpy (Np.Scalar Np.int32
                   (Np.wrap Np.int32 (little_endian [b0; x00; x00; b3])))), lg)
  /\ little_endian [b0; b1; b2; b3] =
     little_endian [b0; x00; x00; b3] + 256 * byte_val b1 + 65536 * byte_val b2
  /\ decodeBytes [x00; x01; x00; x00] true lg =
     (Ok (VNumpy (Np.Scalar Np.uint32 0)), lg)
  /\ little_endian [x00; x01; x00; x00] = 256.
Proof.
  pose proof (byte_val_range b0) as R0. pose proof (byte_val_range b3) as R3.
  assert (L : little_endian [b0; x00; x00; b3]
              = byte_val b0 + 16777216 * byte_val b3).
  { rewrite little_endian_4, byte_val_x00. lia. }
  split; [|split; [|split; [|split]]].
  - unfold decodeBytes. rewrite decodeBytes_4_combined, L.
    unfold Np.cast, Np.val, ret.
    rewrite wrap_small
      by (unfold Np.signed, Np.bits; change (2 ^ 32) with 4294967296; lia).
    reflexivity.
  - unfold decodeBytes. rewrite decodeBytes_4_combined, L. reflexivity.
  - rewrite L, little_endian_4. lia.
  - reflexivity.
  - reflexivity.
Qed.

(** C7: on two bytes [lo, hi] the unsigned decode is [lo | (hi << 8)], a value
    in [0, 65535]; when [hi >= 0x80] the signed decode is that 16-bit pattern
    minus [2^16], its two's-complement reading, which is negative. *)
Theorem decodeBytes_two_bytes (lo hi : byte) (lg : logbook) :
  decodeBytes [lo; hi] true lg =
    (Ok (VNumpy (Np.Scalar Np.uint16
                   (Z.lor (byte_val lo) (Z.shiftl (byte_val hi) 8)))), lg)
  /\ 0 <= Z.lor (byte_val lo) (Z.shiftl (byte_val hi) 8) <= 65535
  /\ (128 <= byte_val hi ->
      decodeBytes [lo; hi] false lg =
        (Ok (VNumpy (Np.Scalar Np.int16
               (Z.lor (byte_val lo) (Z.shiftl (byte_val hi) 8) - 65536))), lg)
      /\ Z.lor (byte_val lo) (Z.shiftl (byte_val hi) 8) - 65536 < 0).
Proof.
  pose proof (byte_val_range lo) as Rl. pose proof (byte_val_range hi) as Rh.
  rewrite lor_byte_pair. split; [apply decodeBytes_2_unsigned|].
  split; [lia|]. intros H. split; [|lia].
  rewrite decodeBytes_2_signed.
  destruct (Z.ltb_spec (byte_val hi) 128); [lia | reflexivity].
Qed.

Lemma decodeBytes_two_bytes_witness :
  128 <= byte_val xf4 /\
  decodeBytes [x12; xf4] false [] =
    (Ok (VNumpy (Np.Scalar Np.int16 (-3054))), []).
Proof.
  assert (H : 128 <= byte_val xf4) by (change (byte_val xf4) with 244; lia).
  split; [exact H|].
  exact (proj1 (proj2 (proj2 (decodeBytes_two_bytes x12 xf4 [])) H)).
Defined.

(** C8: on one byte the code returns its argument, the one-element
    [bytearray], whatever the flag; it does not return the integer value of
    the byte. *)
Theorem decodeBytes_one_byte_returns_bytearray
        (b : byte) (returnUnsignedInt : bool) (lg : logbook) :
  decodeBytes [b] returnUnsignedInt lg = (Ok (VBytearray [b]), lg)
  /\ decodeBytes [b] returnUnsignedInt lg <> (Ok (VInt (byte_val b)), lg).
Proof.
  split; [reflexivity | discriminate].
Qed.

(** C9, as amended: on an input whose length is not 1, 2 or 4, [decodeBytes]
    raises nothing: it logs one debug-level record and returns [None]. *)
Theorem decodeBytes_other_width
        (bs : list byte) (returnUnsignedInt : bool) (lg : logbook) :
  List.length bs <> 1%nat -> List.length bs <> 2%nat -> List.length bs <> 4%nat ->
  decodeBytes bs returnUnsignedInt lg = (Ok VNone, lg ++ [moreBytesRecord]).
Proof.
  intros H1 H2 H4.
  destruct bs as [|a [|b [|c [|d [|e r]]]]]; simpl in *;
    try congruence; reflexivity.
Qed.

Lemma decodeBytes_other_width_witness :
  decodeBytes [x01; x02; x03; x04; x05] true [] = (Ok VNone, [moreBytesRecord]).
Proof.
  apply (decodeBytes_other_width [x01; x02; x03; x04; x05] true []);
    simpl; lia.
Defined.

(** C9, the claim as stated fails: three bytes are answered with a normal
    return of [None], not with an error. *)
Lemma decodeBytes_three_bytes_returns_None :
  decodeBytes [x01; x02; x03] false [] = (Ok VNone, [moreBytesRecord]).
Proof. reflexivity. Qed.

(* ================================================================= *)
(** ** Sequencing, slices *)

Lemma bind_ret {A B} (a : A) (k : A -> M B) (lg : logbook) :
  bind (ret a) k lg = k a lg.
Proof. reflexivity. Qed.

Lemma bind_raise {A B} (e : exn) (k : A -> M B) (lg : logbook) :
  bind (raise e) k lg = (Raise e, lg).
Proof. reflexivity. Qed.

Lemma bind_Ok {A B} (m : M A) (k : A -> M B) (lg lg' : logbook) (a : A) :
  m lg = (Ok a, lg') -> bind m k lg = k a lg'.
Proof. unfold bind. now intros ->. Qed.

Lemma bind_Raise {A B} (m : M A) (k : A -> M B) (lg lg' : logbook) (e : exn) :
  m lg = (Raise e, lg') -> bind m k lg = (Raise e, lg').
Proof. unfold bind. now intros ->. Qed.

Lemma setitem_Ok (d : dict) (key : string) (call : M value)
      (lg lg' : logbook) (v : value) :
  call lg = (Ok v, lg') -> setitem d key call lg = (Ok (dict_set d key v), lg').
Proof. intros H. unfold setitem. now rewrite (bind_Ok _ _ _ _ _ H). Qed.

Lemma setitem_Raise (d : dict) (key : string) (call : M value)
      (lg lg' : logbook) (e : exn) :
  call lg = (Raise e, lg') -> setitem d key call lg = (Raise e, lg').
Proof. intros H. unfold setitem. now rewrite (bind_Raise _ _ _ _ _ H). Qed.

Lemma truediv_nonzero (a b : float) :
  PrimFloat.eqb b 0%float = false -> truediv a b = ret (PrimFloat.div a b).
Proof. unfold truediv. now intros ->. Qed.

Lemma slice_to_end (l : list byte) (i : nat) :
  slice l i (List.length l) = skipn i l.
Proof.
  unfold slice. apply firstn_all2. rewrite length_skipn. lia.
Qed.

Lemma slice_two_after (pre post : list byte) (b0 b1 : byte) (a : nat) :
  List.length pre = a -> slice (pre ++ b0 :: b1 :: post) a (2 + a) = [b0; b1].
Proof.
  intros H. unfold slice. replace (2 + a - a)%nat with 2%nat by lia.
  rewrite skipn_app, H, Nat.sub_diag.
  rewrite skipn_all2 by lia. reflexivity.
Qed.

(* ================================================================= *)
(** ** [TempCalc] *)

Lemma domain_check_all : forallb domain_check raw_sums = true.
Proof. vm_compute. reflexivity. Qed.

Lemma domain_check_sum (b0 b1 : byte) :
  domain_check (byte_val b0 + byte_val b1) = true.
Proof.
  pose proof (byte_val_range b0). pose proof (byte_val_range b1).
  pose proof domain_check_all as A. rewrite forallb_forall in A. apply A.
  unfold raw_sums. apply in_map_iff.
  exists (Z.to_nat (byte_val b0 + byte_val b1)). split; [lia|].
  apply in_seq. lia.
Qed.

(** On two bytes or more, [TempCalc] depends on the sum of the first two
    only: a domain error where the logarithm has no value, the formula
    elsewhere. *)
Lemma TempCalc_sum (libm_log : float -> float)
      (b0 b1 : byte) (rest : list byte) (lg : logbook) :
  TempCalc libm_log (b0 :: b1 :: rest) lg =
  if log_undefined (byte_val b0 + byte_val b1) then (Raise ValueError, lg)
  else thermistor_celsius libm_log (byte_val b0 + byte_val b1) lg.
Proof.
  pose proof (domain_check_sum b0 b1) as D.
  unfold domain_check in D. apply andb_true_iff in D as [D1 D2].
  apply negb_true_iff in D1. apply eqb_prop in D2.
  unfold TempCalc.
  rewrite truediv_nonzero, bind_ret by (vm_compute; reflexivity).
  change (getitem (b0 :: b1 :: rest) 0) with (@ret Z (byte_val b0)).
  change (getitem (b0 :: b1 :: rest) 1) with (@ret Z (byte_val b1)).
  rewrite !bind_ret. cbv zeta.
  rewrite truediv_nonzero, bind_ret by exact D1.
  rewrite truediv_nonzero, bind_ret by (vm_compute; reflexivity).
  fold (thermistor_R (byte_val b0 + byte_val b1)).
  unfold math_log. rewrite D2.
  destruct (log_undefined (byte_val b0 + byte_val b1)).
  - apply bind_raise.
  - rewrite bind_ret.
    rewrite truediv_nonzero, bind_ret by (vm_compute; reflexivity).
    reflexivity.
Qed.

Lemma TempCalc_short (libm_log : float -> float) (bs : list byte) (lg : logbook) :
  (List.length bs < 2)%nat -> TempCalc libm_log bs lg = (Raise IndexError, lg).
Proof.
  intros H. unfold TempCalc.
  rewrite truediv_nonzero, bind_ret by (vm_compute; reflexivity).
  destruct bs as [|b0 [|b1 r]]; [reflexivity | reflexivity | simpl in H; lia].
Qed.

Lemma TempCalc_keeps_log (libm_log : float -> float) (bs : list byte) (lg : logbook) :
  snd (TempCalc libm_log bs lg) = lg.
Proof.
  destruct bs as [|b0 [|b1 r]].
  - now rewrite TempCalc_short by (simpl; lia).
  - now rewrite TempCalc_short by (simpl; lia).
  - rewrite TempCalc_sum. destruct (log_undefined _); [reflexivity|].
    unfold thermistor_celsius, bind, truediv.
    destruct (PrimFloat.eqb _ _); reflexivity.
Qed.

Lemma log_undefined_iff (V : Z) :
  log_undefined V = true <-> V = 0 \/ 4 <= V.
Proof.
  unfold log_undefined. rewrite orb_true_iff, Z.eqb_eq, Z.leb_le. tauto.
Qed.

(** Folding [23 * 1000] into [23000] changes the rounded resistance. *)
Remark thermistor_R_folding_differs :
  PrimFloat.eqb (thermistor_R 2) (thermistor_R_folded 2) = false.
Proof. vm_compute. reflexivity. Qed.

(** C4, as amended: on two bytes [TempCalc] returns the binary64 evaluation
    of [1 / (1/298 + log(R) / 3430) - 273] only when the sum of the bytes is
    1, 2 or 3; on every other sum [R <= 0], the logarithm has no value and
    [ValueError] is raised, nothing is returned. *)
Theorem TempCalc_formula_or_ValueError
        (libm_log : float -> float) (b0 b1 : byte) (lg : logbook) :
  PrimFloat.leb (thermistor_R (byte_val b0 + byte_val b1)) 0%float
  = (byte_val b0 + byte_val b1 =? 0) || (4 <=? byte_val b0 + byte_val b1)
  /\ TempCalc libm_log [b0; b1] lg =
     if (byte_val b0 + byte_val b1 =? 0) || (4 <=? byte_val b0 + byte_val b1)
     then (Raise ValueError, lg)
     else thermistor_celsius libm_log (byte_val b0 + byte_val b1) lg.
Proof.
  split.
  - pose proof (domain_check_sum b0 b1) as D. unfold domain_check in D.
    apply andb_true_iff in D as [_ D]. now apply eqb_prop in D.
  - rewrite TempCalc_sum. reflexivity.
Qed.

(** C4, the claim as stated fails: on [149, 150] nothing is returned. *)
Lemma TempCalc_149_150_raises :
  TempCalc libm_absent [x95; x96] [] = (Raise ValueError, []).
Proof. vm_compute. reflexivity. Qed.

(* ================================================================= *)
(** ** [parsePacket] *)

Lemma BatteryVoltage_raises (bs : list byte) (lg : logbook) :
  BatteryVoltage bs lg =
  (Raise (if (2 <=? List.length bs)%nat then TypeError else IndexError), lg).
Proof. destruct bs as [|b0 [|b1 r]]; reflexivity. Qed.

(** An exception of the [Temperature] entry leaves [parsePacket]. *)
Lemma telemetryPoints_Temperature_raises (libm_log : float -> float)
      (p : list byte) (lg lg' : logbook) (e : exn) :
  TempCalc libm_log (slice p 11 13) lg = (Raise e, lg') ->
  telemetryPoints libm_log p lg = (Raise e, lg').
Proof.
  intros H. unfold telemetryPoints. cbv zeta.
  do 3 (erewrite bind_Ok by (apply setitem_Ok; reflexivity)).
  apply bind_Raise. apply setitem_Raise. unfold decodeTemperature.
  now apply bind_Raise.
Qed.

(** When the [Temperature] entry is computed, the [Battery Voltage] entry
    raises. *)
Lemma telemetryPoints_BatteryVoltage_raises (libm_log : float -> float)
      (p : list byte) (lg lg' : logbook) (t : float) :
  TempCalc libm_log (slice p 11 13) lg = (Ok t, lg') ->
  telemetryPoints libm_log p lg =
  (Raise (if (2 <=? List.length (slice p 29 31))%nat
          then TypeError else IndexError), lg').
Proof.
  intros H. unfold telemetryPoints. cbv zeta.
  do 3 (erewrite bind_Ok by (apply setitem_Ok; reflexivity)).
  erewrite bind_Ok.
  2:{ apply setitem_Ok. unfold decodeTemperature.
      erewrite bind_Ok by exact H. reflexivity. }
  do 5 (erewrite bind_Ok by (apply setitem_Ok; reflexivity)).
  apply bind_Raise. apply setitem_Raise. apply BatteryVoltage_raises.
Qed.

Lemma telemetryPoints_raises (libm_log : float -> float)
      (p : list byte) (lg : logbook) :
  exists e, telemetryPoints libm_log p lg = (Raise e, lg).
Proof.
  pose proof (TempCalc_keeps_log libm_log (slice p 11 13) lg) as K.
  destruct (TempCalc libm_log (slice p 11 13) lg) as [[t | e] lg'] eqn:E;
    simpl in K; subst lg'.
  - eexists. now apply (telemetryPoints_BatteryVoltage_raises _ _ _ _ t).
  - exists e. now apply telemetryPoints_Temperature_raises.
Qed.

Lemma parsePacket_absent (libm_log : float -> float)
      (buf : list byte) (lg : logbook) :
  absent startSyncBytes buf ->
  parsePacket libm_log buf lg = (Ok (RetInt (-1)), lg ++ [noSyncRecord]).
Proof.
  intros A. unfold parsePacket, findSyncStartIndex. cbv zeta.
  rewrite (proj2 (find_absent_iff startSyncBytes buf) A). reflexivity.
Qed.

Lemma parsePacket_found (libm_log : float -> float)
      (buf : list byte) (lg : logbook) (i : nat) :
  find buf startSyncBytes = Z.of_nat i ->
  parsePacket libm_log buf lg = telemetryPoints libm_log (skipn i buf) lg.
Proof.
  intros F. unfold parsePacket, findSyncStartIndex. cbv zeta. rewrite F.
  destruct (Z.eqb_spec (Z.of_nat i) (-1)) as [E | _]; [lia|].
  now rewrite Nat2Z.id, slice_to_end.
Qed.

Lemma parsePacket_marker_first (libm_log : float -> float)
      (rest : list byte) (lg : logbook) :
  parsePacket libm_log (x08 :: x19 :: rest) lg =
  telemetryPoints libm_log (x08 :: x19 :: rest) lg.
Proof. now rewrite (parsePacket_found _ _ _ 0%nat). Qed.

(** C1: on the packet of the [__main__] block the marker is found at index
    18, bytes 11 and 12 of the reframed buffer are [02 0a], their sum 12 puts
    the logarithm outside its domain, and [parsePacket] raises [ValueError]
    while computing the [Temperature] entry: no dictionary is returned. *)
Theorem parsePacket_exampleData_raises
        (libm_log : float -> float) (lg : logbook) :
  findSyncStartIndex exampleData = 18
  /\ slice (slice exampleData 18 (List.length exampleData)) 11 13 = [x02; x0a]
  /\ TempCalc libm_log [x02; x0a] lg = (Raise ValueError, lg)
  /\ parsePacket libm_log exampleData lg = (Raise ValueError, lg).
Proof.
  assert (T : TempCalc libm_log [x02; x0a] lg = (Raise ValueError, lg))
    by (rewrite TempCalc_sum; reflexivity).
  split; [vm_compute; reflexivity|]. split; [vm_compute; reflexivity|].
  split; [exact T|].
  rewrite (parsePacket_found _ _ _ 18%nat) by (vm_compute; reflexivity).
  apply telemetryPoints_Temperature_raises.
  change (slice (skipn 18 exampleData) 11 13) with [x02; x0a]. exact T.
Qed.

(** C2: [parsePacket] never returns a dictionary.  Without the start marker it
    returns [-1]; with it the call raises, because [BatteryVoltage] raises on
    every call ([TypeError] from [int(_, 16)] on an integer, [IndexError] when
    its slice has fewer than two bytes) unless [Temperature] has raised
    already. *)
Theorem parsePacket_never_returns_dictionary
        (libm_log : float -> float) (buf : list byte) (lg : logbook) :
  ((absent startSyncBytes buf /\
    parsePacket libm_log buf lg = (Ok (RetInt (-1)), lg ++ [noSyncRecord]))
   \/
   ((exists i, occurs_at startSyncBytes buf i) /\
    exists e, parsePacket libm_log buf lg = (Raise e, lg)))
  /\ (forall d lg', parsePacket libm_log buf lg <> (Ok (RetDict d), lg'))
  /\ (forall bs,
        BatteryVoltage bs lg =
        (Raise (if (2 <=? List.length bs)%nat then TypeError else IndexError), lg)).
Proof.
  assert (H : (absent startSyncBytes buf /\
               parsePacket libm_log buf lg = (Ok (RetInt (-1)), lg ++ [noSyncRecord]))
              \/ ((exists i, occurs_at startSyncBytes buf i) /\
                  exists e, parsePacket libm_log buf lg = (Raise e, lg))).
  { destruct (find_spec startSyncBytes buf) as [[F A] | [i [F [O _]]]].
    - left. split; [exact A | now apply parsePacket_absent].
    - right. split; [now exists i|].
      rewrite (parsePacket_found _ _ _ i F). apply telemetryPoints_raises. }
  split; [exact H|]. split.
  - intros d lg' E. destruct H as [[_ R] | [_ [e R]]]; congruence.
  - intros bs. apply BatteryVoltage_raises.
Qed.

(** C6: [parsePacket] returns the sentinel [-1], with one error-level record
    and no exception, exactly when [0x08 0x19] does not occur in the buffer;
    otherwise the telemetry points are read from the buffer with exactly the
    bytes before the leftmost marker dropped, the whole rest kept: the stop
    marker plays no part. *)
Theorem parsePacket_FrameNotFound_iff
        (libm_log : float -> float) (buf : list byte) (lg : logbook) :
  (parsePacket libm_log buf lg = (Ok (RetInt (-1)), lg ++ [noSyncRecord])
   <-> absent startSyncBytes buf)
  /\ (absent startSyncBytes buf \/
      exists i, leftmost startSyncBytes buf i
        /\ findSyncStartIndex buf = Z.of_nat i
        /\ buf = firstn i buf ++ skipn i buf
        /\ List.length (skipn i buf) = (List.length buf - i)%nat
        /\ parsePacket libm_log buf lg
           = telemetryPoints libm_log (skipn i buf) lg).
Proof.
  destruct (find_spec startSyncBytes buf) as [[F A] | [i [F L]]].
  - split; [|now left]. split; [intros _; exact A |].
    intros _. now apply parsePacket_absent.
  - pose proof (parsePacket_found libm_log buf lg i F) as P. split.
    + split.
      * intros E. rewrite P in E.
        destruct (telemetryPoints_raises libm_log (skipn i buf) lg) as [e R].
        congruence.
      * intros A. destruct L as [O _]. destruct (A i O).
    + right. exists i. split; [exact L|]. split; [exact F|].
      split; [now rewrite firstn_skipn|]. split; [apply length_skipn | exact P].
Qed.

(** C5, as amended: when the sum of the two bytes is 0 or at least 4,
    [TempCalc] raises [ValueError]; nothing catches it, so it leaves
    [parsePacket] as an exception.  The divider [3.3 - V] is never zero. *)
Theorem TempCalc_domain_error_is_ValueError
        (libm_log : float -> float) (b0 b1 : byte) (lg : logbook) :
  PrimFloat.eqb
    (PrimFloat.sub 3.3%float (float_of_int (byte_val b0 + byte_val b1)))
    0%float = false
  /\ (byte_val b0 + byte_val b1 = 0 \/ 4 <= byte_val b0 + byte_val b1 ->
      TempCalc libm_log [b0; b1] lg = (Raise ValueError, lg)
      /\ forall pre post, List.length pre = 9%nat ->
           parsePacket libm_log (x08 :: x19 :: pre ++ b0 :: b1 :: post) lg
           = (Raise ValueError, lg)).
Proof.
  split.
  - pose proof (domain_check_sum b0 b1) as D. unfold domain_check in D.
    apply andb_true_iff in D as [D _]. now apply negb_true_iff in D.
  - intros H. apply log_undefined_iff in H.
    assert (T : forall rest,
               TempCalc libm_log (b0 :: b1 :: rest) lg = (Raise ValueError, lg))
      by (intros rest; now rewrite TempCalc_sum, H).
    split; [apply T|]. intros pre post Hp.
    rewrite parsePacket_marker_first.
    apply telemetryPoints_Temperature_raises.
    change (x08 :: x19 :: pre ++ b0 :: b1 :: post)
      with ((x08 :: x19 :: pre) ++ b0 :: b1 :: post).
    change 13%nat with (2 + 11)%nat.
    rewrite slice_two_after by (simpl; lia). apply T.
Qed.

Lemma TempCalc_domain_error_is_ValueError_witness :
  (byte_val x02 + byte_val x0a = 0 \/ 4 <= byte_val x02 + byte_val x0a)
  /\ TempCalc libm_absent [x02; x0a] [] = (Raise ValueError, []).
Proof.
  assert (H : byte_val x02 + byte_val x0a = 0 \/ 4 <= byte_val x02 + byte_val x0a).
  { right. change (byte_val x02 + byte_val x0a) with 12. lia. }
  split; [exact H|].
  exact (proj1 (proj2 (TempCalc_domain_error_is_ValueError
                         libm_absent x02 x0a []) H)).
Defined.

(** C5, the claim as stated fails: on [0, 0] no result is returned to the
    caller; the exception leaves [TempCalc] and then [parsePacket]. *)
Lemma TempCalc_zero_raises_through_parsePacket :
  TempCalc libm_absent [x00; x00] [] = (Raise ValueError, [])
  /\ parsePacket libm_absent (x08 :: x19 :: repeat x00 11) []
     = (Raise ValueError, []).
Proof. split; vm_compute; reflexivity. Qed.

(* ================================================================= *)
(** ** Further properties of the sync locators *)

Lemma occurs_at_pair_nth (a b : byte) (buf : list byte) (i : nat) :
  occurs_at [a; b] buf i ->
  nth_error buf i = Some a /\ nth_error buf (S i) = Some b
  /\ (i + 2 <= List.length buf)%nat.
Proof.
  intros [pre [post [-> L]]]. subst i.
  rewrite (nth_error_app2 pre _ (Nat.le_refl _)), Nat.sub_diag.
  rewrite (nth_error_app2 pre _ (Nat.le_succ_diag_r _)).
  replace (S (List.length pre) - List.length pre)%nat with 1%nat by lia.
  rewrite length_app. simpl. repeat split; lia.
Qed.

Lemma find_pair_points_at_marker (a b : byte) (buf : list byte) :
  find buf [a; b] = -1 \/
  (0 <= find buf [a; b] <= Z.of_nat (List.length buf) - 2
   /\ nth_error buf (Z.to_nat (find buf [a; b])) = Some a
   /\ nth_error buf (S (Z.to_nat (find buf [a; b]))) = Some b).
Proof.
  destruct (find_spec [a; b] buf) as [[F _] | [i [F [O _]]]]; [now left|].
  right. rewrite F, Nat2Z.id.
  destruct (occurs_at_pair_nth a b buf i O) as [N0 [N1 Len]].
  repeat split; try assumption; lia.
Qed.

(** X1: a locator result other than [-1] is an index at which the two
    marker bytes really stand, so it is at most [len(buffer) - 2]. *)
Theorem findSync_result_points_at_marker (buf : list byte) :
  (findSyncStartIndex buf = -1 \/
   (0 <= findSyncStartIndex buf <= Z.of_nat (List.length buf) - 2
    /\ nth_error buf (Z.to_nat (findSyncStartIndex buf)) = Some x08
    /\ nth_error buf (S (Z.to_nat (findSyncStartIndex buf))) = Some x19))
  /\
  (findSyncStopIndex buf = -1 \/
   (0 <= findSyncStopIndex buf <= Z.of_nat (List.length buf) - 2
    /\ nth_error buf (Z.to_nat (findSyncStopIndex buf)) = Some xa5
    /\ nth_error buf (S (Z.to_nat (findSyncStopIndex buf))) = Some xa5)).
Proof.
  split; [apply (find_pair_points_at_marker x08 x19)
         | apply (find_pair_points_at_marker xa5 xa5)].
Qed.

Lemma short_buffer_absent (a b : byte) (buf : list byte) :
  (List.length buf < 2)%nat -> absent [a; b] buf.
Proof.
  intros H i O. apply occurs_at_pair_nth in O as [_ [_ L]]. lia.
Qed.

(** X2: a buffer of fewer than two bytes, the empty one included, holds no
    marker: both locators answer [-1] and [parsePacket] returns the sentinel
    with its error record. *)
Theorem short_buffer_has_no_frame
        (libm_log : float -> float) (buf : list byte) (lg : logbook) :
  (List.length buf < 2)%nat ->
  findSyncStartIndex buf = -1 /\ findSyncStopIndex buf = -1
  /\ parsePacket libm_log buf lg = (Ok (RetInt (-1)), lg ++ [noSyncRecord]).
Proof.
  intros H. split; [|split].
  - apply find_absent_iff. now apply short_buffer_absent.
  - apply find_absent_iff. now apply short_buffer_absent.
  - apply parsePacket_absent. now apply short_buffer_absent.
Qed.

Lemma short_buffer_has_no_frame_witness :
  (List.length [x08] < 2)%nat /\
  parsePacket libm_absent [x08] [] = (Ok (RetInt (-1)), [noSyncRecord]).
Proof.
  assert (H : (List.length [x08] < 2)%nat) by (simpl; lia).
  split; [exact H|].
  exact (proj2 (proj2 (short_buffer_has_no_frame libm_absent [x08] [] H))).
Defined.

Lemma skipn_occurrence (m buf : list byte) (i : nat) :
  occurs_at m buf i -> exists post, skipn i buf = m ++ post.
Proof.
  intros [pre [post [-> L]]]. exists post. subst i.
  rewrite skipn_app, Nat.sub_diag, skipn_all2 by lia. reflexivity.
Qed.

Lemma find_marker_first (rest : list byte) :
  find (x08 :: x19 :: rest) startSyncBytes = 0.
Proof. reflexivity. Qed.

(** X3: reframing is idempotent.  The reframed buffer starts with the
    marker, so locating the marker in it gives 0 and parsing it again gives
    the outcome of parsing the original buffer. *)
Theorem reframing_is_idempotent
        (libm_log : float -> float) (buf : list byte) (lg : logbook) :
  findSyncStartIndex buf = -1 \/
  exists i, findSyncStartIndex buf = Z.of_nat i
    /\ findSyncStartIndex (skipn i buf) = 0
    /\ parsePacket libm_log (skipn i buf) lg = parsePacket libm_log buf lg.
Proof.
  destruct (find_spec startSyncBytes buf) as [[F _] | [i [F [O _]]]]; [now left|].
  right. exists i. split; [exact F|].
  destruct (skipn_occurrence _ _ _ O) as [post E]. rewrite E.
  change (startSyncBytes ++ post) with (x08 :: x19 :: post).
  split; [apply find_marker_first|].
  rewrite (parsePacket_found libm_log buf lg i F), E.
  apply parsePacket_marker_first.
Qed.

Lemma leftmost_unique (m buf : list byte) (i j : nat) :
  leftmost m buf i -> leftmost m buf j -> i = j.
Proof.
  intros [Oi Li] [Oj Lj].
  destruct (Nat.lt_trichotomy i j) as [H | [H | H]]; [|exact H|].
  - destruct (Lj i H Oi).
  - destruct (Li j H Oj).
Qed.

(** Starting the count at [k] shifts a found index by [k]. *)
Lemma find_from_offset (sub l : list byte) (k : Z) :
  find_from sub l k = if find l sub =? -1 then -1 else k + find l sub.
Proof.
  unfold find.
  destruct (find_from_spec sub l k) as [[Fk Ak] | [i [Fk Lk]]];
    destruct (find_from_spec sub l 0) as [[F0 A0] | [j [F0 L0]]].
  - now rewrite Fk, F0.
  - destruct L0 as [O _]. destruct (Ak j O).
  - destruct Lk as [O _]. destruct (A0 i O).
  - rewrite (leftmost_unique _ _ _ _ Lk L0) in Fk. rewrite Fk, F0.
    destruct (Z.eqb_spec (0 + Z.of_nat j) (-1)); lia.
Qed.

Lemma startswith_marker_false (x : byte) (l : list byte) :
  ~ occurs_at startSyncBytes (x :: l) 0 ->
  startswith startSyncBytes (x :: l) = false.
Proof.
  intros H. destruct (startswith startSyncBytes (x :: l)) eqn:E; [|reflexivity].
  destruct H. now apply occurs_at_0.
Qed.

Lemma find_from_skips_noise (pre buf : list byte) (k : Z) :
  absent startSyncBytes pre -> last pre x00 <> x08 ->
  find_from startSyncBytes (pre ++ buf) k
  = find_from startSyncBytes buf (k + Z.of_nat (List.length pre)).
Proof.
  revert k. induction pre as [|x pre IH]; intros k A Lst.
  - simpl. f_equal. lia.
  - assert (S0 : startswith startSyncBytes ((x :: pre) ++ buf) = false).
    { destruct pre as [|y pre'].
      - simpl in Lst. simpl.
        destruct (Byte.eqb x08 x) eqn:E; [|reflexivity].
        apply Byte.byte_dec_bl in E. congruence.
      - simpl.
        destruct (Byte.eqb x08 x) eqn:E; [|reflexivity].
        destruct (Byte.eqb x19 y) eqn:E'; [|reflexivity].
        apply Byte.byte_dec_bl in E. apply Byte.byte_dec_bl in E'. subst.
        destruct (A 0%nat). now exists [], pre'. }
    change ((x :: pre) ++ buf) with (x :: pre ++ buf) in *.
    cbn [find_from]. rewrite S0.
    destruct pre as [|y pre'].
    + simpl. f_equal; try lia.
    + rewrite IH.
      * f_equal. cbn [List.length]. lia.
      * intros i O. apply (A (S i)). now apply occurs_at_S.
      * exact Lst.
Qed.

(** X4: bytes in front of the buffer that hold no start marker and do not
    end in [0x08] shift the start index by their number and leave the
    outcome of [parsePacket] unchanged. *)
Theorem leading_noise_is_ignored
        (libm_log : float -> float) (pre buf : list byte) (lg : logbook) :
  absent startSyncBytes pre -> last pre x00 <> x08 ->
  findSyncStartIndex (pre ++ buf)
  = (if findSyncStartIndex buf =? -1 then -1
     else Z.of_nat (List.length pre) + findSyncStartIndex buf)
  /\ parsePacket libm_log (pre ++ buf) lg = parsePacket libm_log buf lg.
Proof.
  intros A Lst.
  assert (F : find (pre ++ buf) startSyncBytes
              = if find buf startSyncBytes =? -1 then -1
                else Z.of_nat (List.length pre) + find buf startSyncBytes).
  { unfold find at 1. rewrite find_from_skips_noise by assumption.
    rewrite find_from_offset. reflexivity. }
  split; [exact F|].
  destruct (find_spec startSyncBytes buf) as [[F0 A0] | [i [F0 _]]].
  - rewrite F0 in F. simpl in F.
    rewrite (parsePacket_absent _ buf) by exact A0.
    apply parsePacket_absent. now apply find_absent_iff.
  - rewrite F0 in F.
    destruct (Z.eqb_spec (Z.of_nat i) (-1)) as [E | _]; [lia|].
    rewrite (parsePacket_found _ buf lg i F0).
    rewrite (parsePacket_found _ (pre ++ buf) lg (List.length pre + i)%nat)
      by (rewrite F; lia).
    rewrite skipn_app.
    replace (List.length pre + i - List.length pre)%nat with i by lia.
    rewrite skipn_all2 by lia. reflexivity.
Qed.

Lemma leading_noise_is_ignored_witness :
  findSyncStartIndex ([xc0; x00; x19] ++ [x9a; x08; x19; xc1]) = 4.
Proof.
  refine (proj1 (leading_noise_is_ignored libm_absent
                   [xc0; x00; x19] [x9a; x08; x19; xc1] [] _ _)).
  - intros i O. apply find_absent_iff in O; [exact O | reflexivity].
  - simpl. discriminate.
Defined.

(* ================================================================= *)
(** ** Further properties of [TempCalc] *)


(** X6: [TempCalc] raises [IndexError] exactly on inputs of fewer than two
    bytes. *)
Theorem TempCalc_IndexError_iff_short
        (libm_log : float -> float) (bs : list byte) (lg : logbook) :
  TempCalc libm_log bs lg = (Raise IndexError, lg)
  <-> (List.length bs < 2)%nat.
Proof.
  split; [|apply TempCalc_short].
  destruct bs as [|b0 [|b1 r]]; [simpl; lia | simpl; lia |].
  rewrite TempCalc_sum. intros H. exfalso.
  destruct (log_undefined _); [discriminate|].
  unfold thermistor_celsius, bind, truediv in H.
  destruct (PrimFloat.eqb _ _); discriminate.
Qed.

(* ================================================================= *)
(** ** Further properties of [decodeBytes] *)

Lemma byte_val_inj (a b : byte) : byte_val a = byte_val b -> a = b.
Proof.
  unfold byte_val. intros H. apply N2Z.inj in H.
  apply (f_equal Byte.of_N) in H. rewrite !Byte.of_to_N in H. congruence.
Qed.

(** X7: the signed two-byte decode is the two's-complement reading of the
    16-bit pattern: within [-32768, 32767], congruent to [lo + 256 * hi]
    modulo [2^16], negative exactly when [hi >= 0x80], and equal to the
    unsigned decode exactly when [hi < 0x80]. *)
Theorem decodeBytes_signed16_reading (lo hi : byte) (lg : logbook) :
  exists v,
    decodeBytes [lo; hi] false lg = (Ok (VNumpy (Np.Scalar Np.int16 v)), lg)
    /\ -32768 <= v <= 32767
    /\ v mod 65536 = byte_val lo + 256 * byte_val hi
    /\ (v < 0 <-> 128 <= byte_val hi)
    /\ (decodeBytes [lo; hi] true lg = (Ok (VNumpy (Np.Scalar Np.uint16 v)), lg)
        <-> byte_val hi < 128).
Proof.
  pose proof (byte_val_range lo) as Rl. pose proof (byte_val_range hi) as Rh.
  rewrite decodeBytes_2_signed, decodeBytes_2_unsigned.
  destruct (Z.ltb_spec (byte_val hi) 128) as [H | H]; eexists;
    (split; [reflexivity|]); (split; [lia|]); split.
  - apply Z.mod_small. lia.
  - split; [lia|]. split; [easy|reflexivity].
  - replace (byte_val lo + 256 * byte_val hi - 65536)
      with (byte_val lo + 256 * byte_val hi + (-1) * 65536) by lia.
    rewrite Z.mod_add by lia. apply Z.mod_small. lia.
  - split; [lia|]. split; [|lia]. intros E.
    assert (byte_val lo + 256 * byte_val hi
            = byte_val lo + 256 * byte_val hi - 65536) by congruence. lia.
Qed.

(** X8: the unsigned two-byte decode loses nothing: the low byte is the
    result modulo 256, the high byte the result divided by 256, and two
    inputs decode alike only when they are the same. *)
Theorem decodeBytes_unsigned16_round_trip
        (lo hi lo' hi' : byte) (lg : logbook) :
  (exists v,
     decodeBytes [lo; hi] true lg = (Ok (VNumpy (Np.Scalar Np.uint16 v)), lg)
     /\ v mod 256 = byte_val lo /\ v / 256 = byte_val hi)
  /\ (decodeBytes [lo; hi] true lg = decodeBytes [lo'; hi'] true lg
      <-> lo = lo' /\ hi = hi').
Proof.
  pose proof (byte_val_range lo) as Rl. pose proof (byte_val_range hi) as Rh.
  pose proof (byte_val_range lo') as Rl'. pose proof (byte_val_range hi') as Rh'.
  rewrite !decodeBytes_2_unsigned. split.
  - eexists. split; [reflexivity|].
    rewrite (Z.mul_comm 256), Z.mod_add, Z.div_add by lia.
    rewrite Z.mod_small, Z.div_small by lia. lia.
  - split.
    + intros E.
      assert (byte_val lo + 256 * byte_val hi
              = byte_val lo' + 256 * byte_val hi') by congruence.
      split; apply byte_val_inj; lia.
    + now intros [-> ->].
Qed.

Lemma decodeBytes_4_unsigned (b0 b1 b2 b3 : byte) (lg : logbook) :
  decodeBytes [b0; b1; b2; b3] true lg =
  (Ok (VNumpy (Np.Scalar Np.uint32 (byte_val b0 + 16777216 * byte_val b3))), lg).
Proof.
  pose proof (byte_val_range b0) as R0. pose proof (byte_val_range b3) as R3.
  unfold decodeBytes. rewrite decodeBytes_4_combined.
  unfold Np.cast, Np.val, ret.
  rewrite wrap_small
    by (unfold Np.signed, Np.bits; change (2 ^ 32) with 4294967296; lia).
  reflexivity.
Qed.

Lemma decodeBytes_4_signed (b0 b1 b2 b3 : byte) (lg : logbook) :
  decodeBytes [b0; b1; b2; b3] false lg =
  (Ok (VNumpy (Np.Scalar Np.int32
     (if byte_val b3 <? 128 then byte_val b0 + 16777216 * byte_val b3
      else byte_val b0 + 16777216 * byte_val b3 - 4294967296))), lg).
Proof.
  pose proof (byte_val_range b0) as R0. pose proof (byte_val_range b3) as R3.
  unfold decodeBytes. rewrite decodeBytes_4_combined.
  unfold Np.cast, Np.val, ret. do 3 f_equal.
  rewrite wrap_signed by reflexivity.
  change (2 ^ (Np.bits Np.int32 - 1)) with 2147483648.
  change (2 ^ Np.bits Np.int32) with 4294967296. f_equal.
  destruct (Z.ltb_spec (byte_val b3) 128).
  - rewrite Z.mod_small; lia.
  - replace (byte_val b0 + 16777216 * byte_val b3 + 2147483648)
      with ((byte_val b0 + 16777216 * byte_val b3 - 2147483648)
            + 1 * 4294967296) by lia.
    rewrite Z.mod_add by lia. rewrite Z.mod_small; lia.
Qed.

(** X9: on four bytes the unsigned decode lies in [0, 2^32 - 1], the signed
    one in [-2^31, 2^31 - 1]; they are congruent modulo [2^32], the signed one
    is negative exactly when [b[3] >= 0x80] and they are equal exactly when
    [b[3] < 0x80]; bytes 0 and 3 can be read back from the result. *)
Theorem decodeBytes_32_ranges_and_sign
        (b0 b1 b2 b3 : byte) (lg : logbook) :
  exists u s,
    decodeBytes [b0; b1; b2; b3] true lg
      = (Ok (VNumpy (Np.Scalar Np.uint32 u)), lg)
    /\ decodeBytes [b0; b1; b2; b3] false lg
      = (Ok (VNumpy (Np.Scalar Np.int32 s)), lg)
    /\ 0 <= u <= 4294967295
    /\ -2147483648 <= s <= 2147483647
    /\ s mod 4294967296 = u
    /\ (s < 0 <-> 128 <= byte_val b3)
    /\ (s = u <-> byte_val b3 < 128)
    /\ u mod 256 = byte_val b0 /\ u / 16777216 = byte_val b3.
Proof.
  pose proof (byte_val_range b0) as R0. pose proof (byte_val_range b3) as R3.
  rewrite decodeBytes_4_unsigned, decodeBytes_4_signed.
  do 2 eexists. split; [reflexivity|]. split; [reflexivity|].
  split; [lia|].
  assert (M : (byte_val b0 + 16777216 * byte_val b3) mod 256 = byte_val b0).
  { replace (16777216 * byte_val b3) with ((65536 * byte_val b3) * 256) by lia.
    rewrite Z.mod_add by lia. apply Z.mod_small. lia. }
  assert (D : (byte_val b0 + 16777216 * byte_val b3) / 16777216 = byte_val b3).
  { rewrite (Z.mul_comm 16777216), Z.div_add by lia.
    rewrite Z.div_small by lia. lia. }
  destruct (Z.ltb_spec (byte_val b3) 128) as [H | H].
  - split; [lia|]. split; [apply Z.mod_small; lia|].
    repeat split; try lia; try exact M; exact D.
  - split; [lia|]. split.
    + replace (byte_val b0 + 16777216 * byte_val b3 - 4294967296)
        with (byte_val b0 + 16777216 * byte_val b3 + (-1) * 4294967296) by lia.
      rewrite Z.mod_add by lia. apply Z.mod_small. lia.
    + repeat split; try lia; try exact M; exact D.
Qed.


(* ================================================================= *)
(** ** Which exception leaves [parsePacket] *)

Lemma length_slice (l : list byte) (a b : nat) :
  List.length (slice l a b) = Nat.min (b - a) (List.length l - a).
Proof. unfold slice. now rewrite length_firstn, length_skipn. Qed.

Lemma telemetryPoints_outcome (libm_log : float -> float)
      (p : list byte) (lg : logbook) :
  telemetryPoints libm_log p lg =
  match TempCalc libm_log (slice p 11 13) lg with
  | (Raise e, _) => (Raise e, lg)
  | (Ok _, _) =>
      (Raise (if (31 <=? List.length p)%nat then TypeError else IndexError), lg)
  end.
Proof.
  pose proof (TempCalc_keeps_log libm_log (slice p 11 13) lg) as K.
  destruct (TempCalc libm_log (slice p 11 13) lg) as [[t | e] lg'] eqn:E;
    simpl in K; subst lg'.
  - rewrite (telemetryPoints_BatteryVoltage_raises _ _ _ _ t E).
    rewrite length_slice.
    destruct (Nat.leb_spec 31 (List.length p));
      destruct (Nat.leb_spec 2 (Nat.min (31 - 29) (List.length p - 29)));
      try reflexivity; lia.
  - now apply telemetryPoints_Temperature_raises.
Qed.

(** X11: with the start marker found at index [i], the exception that leaves
    [parsePacket] is the one [TempCalc] raises on bytes [i+11] and [i+12];
    when [TempCalc] returns, it is the [TypeError] of [BatteryVoltage] if the
    buffer reaches index [i+30], and [IndexError] otherwise.  The logbook is
    left as it was. *)
Theorem parsePacket_exception_by_frame
        (libm_log : float -> float) (buf : list byte) (lg : logbook) (i : nat) :
  findSyncStartIndex buf = Z.of_nat i ->
  parsePacket libm_log buf lg =
  match TempCalc libm_log (slice buf (i + 11) (i + 13)) lg with
  | (Raise e, _) => (Raise e, lg)
  | (Ok _, _) =>
      (Raise (if (i + 31 <=? List.length buf)%nat
              then TypeError else IndexError), lg)
  end.
Proof.
  intros F. rewrite (parsePacket_found _ _ _ i F), telemetryPoints_outcome.
  assert (S : slice (skipn i buf) 11 13 = slice buf (i + 11) (i + 13)).
  { unfold slice. rewrite skipn_skipn.
    replace (i + 13 - (i + 11))%nat with (13 - 11)%nat by lia.
    now rewrite (Nat.add_comm 11 i). }
  rewrite S, length_skipn.
  destruct (TempCalc libm_log (slice buf (i + 11) (i + 13)) lg) as [[t | e] l];
    [|reflexivity].
  destruct (Nat.leb_spec 31 (List.length buf - i));
    destruct (Nat.leb_spec (i + 31) (List.length buf)); try reflexivity; lia.
Qed.

Lemma parsePacket_exception_by_frame_witness :
  parsePacket libm_absent ([xc0; x08; x19] ++ repeat x00 9 ++ [x01; x02]) []
  = (Raise IndexError, []).
Proof.
  refine (parsePacket_exception_by_frame libm_absent
            ([xc0; x08; x19] ++ repeat x00 9 ++ [x01; x02]) [] 1 _).
  reflexivity.
Defined.

(** X12: when fewer than 13 bytes follow the start of the marker,
    [parsePacket] raises [IndexError]. *)
Theorem parsePacket_IndexError_on_short_frame
        (libm_log : float -> float) (buf : list byte) (lg : logbook) (i : nat) :
  findSyncStartIndex buf = Z.of_nat i ->
  (List.length buf < i + 13)%nat ->
  parsePacket libm_log buf lg = (Raise IndexError, lg).
Proof.
  intros F H. rewrite (parsePacket_found _ _ _ i F).
  apply telemetryPoints_Temperature_raises. apply TempCalc_short.
  rewrite length_slice, length_skipn. lia.
Qed.

Lemma parsePacket_IndexError_on_short_frame_witness :
  parsePacket libm_absent [xc0; x08; x19; xa5; xa5] [] = (Raise IndexError, []).
Proof.
  apply (parsePacket_IndexError_on_short_frame libm_absent
           [xc0; x08; x19; xa5; xa5] [] 1).
  - reflexivity.
  - simpl. lia.
Defined.

(* ================================================================= *)
(** ** [testParsePacket] *)

(** X13: [testParsePacket] prints and logs a result only when there is no
    start marker, and that result is [-1]; with a marker the exception of
    [parsePacket] passes through after the opening log record, before
    anything is printed. *)
Theorem testParsePacket_prints_only_the_sentinel
        (libm_log : float -> float) (buf : list byte) (trace : list event) :
  (absent startSyncBytes buf /\
   testParsePacket libm_log buf trace =
   (Ok tt, trace ++ [ArgLog INFO "Testing MinXSS packet parse";
                     SelfLog noSyncRecord;
                     Printed (RetInt (-1));
                     ArgLogResult INFO (RetInt (-1))]))
  \/
  ((exists i, occurs_at startSyncBytes buf i) /\
   exists e, testParsePacket libm_log buf trace =
             (Raise e, trace ++ [ArgLog INFO "Testing MinXSS packet parse"])).
Proof.
  unfold testParsePacket. cbv zeta.
  destruct (find_spec startSyncBytes buf) as [[F A] | [i [F [O _]]]].
  - left. split; [exact A|].
    rewrite (parsePacket_absent libm_log buf [] A). simpl.
    now rewrite <- !app_assoc.
  - right. split; [now exists i|].
    rewrite (parsePacket_found libm_log buf [] i F).
    destruct (telemetryPoints_raises libm_log (skipn i buf) []) as [e R].
    exists e. rewrite R. simpl. now rewrite app_nil_r.
Qed.
